(** * The UniRef adapter for calour (uniref_calour/uniref_calour.py)

    A shallow embedding of the [Uniref] database interface: the constructor,
    [get_seq_annotation_strings] and [show_annotation_info].  Python values
    are a small inductive type, exceptions are an explicit result, and the
    three effects of the module (the HTTP GET, the logger, the browser) are
    recorded in a trace that is threaded through every call. *)

From Stdlib Require Import ZArith List String Ascii Bool Lia DecimalString.
Import ListNotations.
Open Scope string_scope.
Set Warnings "-register-all".

(** ** Python values *)

(** The values that reach the adapter: what [json.loads] builds (None,
    bool, int, float, str, list, dict with str keys) and the tuples the
    adapter builds itself.  A float is kept as its IEEE-754 binary64
    pattern; a dict is its items in insertion order. *)
Inductive value : Type :=
| VNone
| VBool (b : bool)
| VInt (z : Z)
| VFloat (bits : Z)
| VStr (s : string)
| VList (xs : list value)
| VTuple (xs : list value)
| VDict (items : list (string * value)).

(** The exceptions that can leave the adapter. *)
Inductive exn : Type :=
| AttributeError (type_name attr : string)
| KeyError (key : string)
| TypeError (msg : string)
| ValueError (msg : string)
| JSONDecodeError
| RequestException (msg : string)
| BrowserError (msg : string).

Inductive outcome (A : Type) : Type :=
| Return (a : A)
| Raise (e : exn).
Arguments Return {A} a.
Arguments Raise {A} e.

(** What the module does to the outside world, in the order it happens. *)
Inductive event : Type :=
| HttpGet (url : string)
| LogDebug (msg : string)
| LogWarning (msg : string)
| BrowserOpen (url : string) (new : Z).

Definition trace := list event.

(** ** Computations: a trace and a result or an exception *)

Definition M (A : Type) : Type := trace -> outcome A * trace.

Definition ret {A} (a : A) : M A := fun t => (Return a, t).

Definition bind {A B} (m : M A) (k : A -> M B) : M B :=
  fun t => match m t with
           | (Return a, t') => k a t'
           | (Raise e, t') => (Raise e, t')
           end.

Definition lift {A} (o : outcome A) : M A := fun t => (o, t).

Definition emit (e : event) : M unit := fun t => (Return tt, (t ++ [e])%list).

Declare Scope py_scope.
Delimit Scope py_scope with py.
Notation "x <- m ;; k" := (bind m (fun x => k))
  (at level 61, m at next level, right associativity) : py_scope.
Notation "m ;;; k" := (bind m (fun _ => k))
  (at level 61, right associativity) : py_scope.
Open Scope py_scope.

(** [for x in xs: body], with the variables the body updates as [s]. *)
Fixpoint for_in {A S} (xs : list A) (body : A -> S -> M S) (s : S) : M S :=
  match xs with
  | [] => ret s
  | x :: xs' => s' <- body x s ;; for_in xs' body s'
  end.

(** ** The operations of Python the adapter uses *)

Fixpoint lookup (k : string) (items : list (string * value)) : option value :=
  match items with
  | [] => None
  | (k', v) :: rest => if String.eqb k k' then Some v else lookup k rest
  end.

(** [v[k]] for a str key [k]. *)
Definition getitem (v : value) (k : string) : outcome value :=
  match v with
  | VDict items =>
      match lookup k items with
      | Some x => Return x
      | None => Raise (KeyError k)
      end
  | VList _ => Raise (TypeError "list indices must be integers or slices, not str")
  | VTuple _ => Raise (TypeError "tuple indices must be integers or slices, not str")
  | VStr _ => Raise (TypeError "string indices must be integers, not 'str'")
  | _ => Raise (TypeError "object is not subscriptable")
  end.

Fixpoint chars (s : string) : list value :=
  match s with
  | EmptyString => []
  | String c s' => VStr (String c EmptyString) :: chars s'
  end.

(** The items [for x in v] runs over. *)
Definition iter (v : value) : outcome (list value) :=
  match v with
  | VList xs => Return xs
  | VTuple xs => Return xs
  | VDict items => Return (map (fun kv => VStr (fst kv)) items)
  | VStr s => Return (chars s)
  | _ => Raise (TypeError "object is not iterable")
  end.

Definition is_str (k : string) (v : value) : bool :=
  match v with
  | VStr s => String.eqb k s
  | _ => false
  end.

(** [k in v] for a str [k]: a key of a dict, an element of a list or tuple,
    a substring of a str. *)
Definition contains (k : string) (v : value) : outcome bool :=
  match v with
  | VDict items =>
      Return (match lookup k items with Some _ => true | None => false end)
  | VList xs => Return (existsb (is_str k) xs)
  | VTuple xs => Return (existsb (is_str k) xs)
  | VStr s =>
      Return (match String.index 0 k s with Some _ => true | None => false end)
  | _ => Raise (TypeError "argument is not iterable")
  end.

(** [s + v] for a str [s]. *)
Definition str_add (s : string) (v : value) : outcome string :=
  match v with
  | VStr s' => Return (s ++ s')
  | _ => Raise (TypeError "can only concatenate str (not another type) to str")
  end.

Definition decimal (z : Z) : string := NilZero.string_of_int (Z.to_int z).

Section Adapter.

(** [str(v)] for a value that is not a str, and [int(x)] for a float: the
    interpreter's printing of floats and containers is not spelled out. *)
Variable str_other : value -> string.
Variable int_of_float : Z -> outcome Z.

Definition str (v : value) : string :=
  match v with
  | VStr s => s
  | _ => str_other v
  end.

(** [(prefix + '%s') % v]: a tuple operand is the argument list, any other
    value is the one argument. *)
Definition percent_s (prefix : string) (v : value) : outcome string :=
  match v with
  | VTuple [] => Raise (TypeError "not enough arguments for format string")
  | VTuple [x] => Return (prefix ++ str x)
  | VTuple _ =>
      Raise (TypeError "not all arguments converted during string formatting")
  | _ => Return (prefix ++ str v)
  end.

Definition percent_d_arg (prefix : string) (v : value) : outcome string :=
  match v with
  | VInt z => Return (prefix ++ decimal z)
  | VBool b => Return (prefix ++ decimal (if b then 1 else 0))
  | VFloat bits =>
      match int_of_float bits with
      | Return z => Return (prefix ++ decimal z)
      | Raise e => Raise e
      end
  | _ => Raise (TypeError "%d format: a real number is required")
  end.

(** [(prefix + '%d') % v]. *)
Definition percent_d (prefix : string) (v : value) : outcome string :=
  match v with
  | VTuple [] => Raise (TypeError "not enough arguments for format string")
  | VTuple [x] => percent_d_arg prefix x
  | VTuple _ =>
      Raise (TypeError "not all arguments converted during string formatting")
  | _ => percent_d_arg prefix v
  end.

(** *** The response object of [requests.get]

    [status_code] is the attribute the adapter tests, [json] is the result
    of the [json()] method (it raises when the body is not JSON), and
    [other_attrs] are the remaining attributes of the object by name. *)
Record Response : Type := {
  status_code : Z;
  json : outcome value;
  other_attrs : list (string * value)
}.

(** [res.name]. *)
Definition getattr (res : Response) (name : string) : outcome value :=
  if String.eqb name "status_code" then Return (VInt (status_code res))
  else match lookup name (other_attrs res) with
       | Some v => Return v
       | None => Raise (AttributeError "Response" name)
       end.

(** A [requests.Response] carries its status in [status_code]; it has no
    attribute named [code]. *)
Definition requests_Response (res : Response) : Prop :=
  lookup "code" (other_attrs res) = None.

(** *** The outside world *)

(** [requests.get(url)]: a response, or a transport failure. *)
Variable requests_get_world : string -> outcome Response.
(** [webbrowser.open(url, new)]: whether a browser took the URL, or a
    failure of the launch. *)
Variable webbrowser_open_world : string -> Z -> outcome bool.

Definition requests_get (url : string) : M Response :=
  emit (HttpGet url) ;;; lift (requests_get_world url).

Definition webbrowser_open (url : string) (new : Z) : M bool :=
  emit (BrowserOpen url new) ;;; lift (webbrowser_open_world url new).

Definition logger_debug (msg : string) : M unit := emit (LogDebug msg).
Definition logger_warn (msg : string) : M unit := emit (LogWarning msg).

(** *** class Uniref(Database) *)

Record Uniref : Type := {
  exp : value;
  database_name : string;
  methods : list string;
  uniref_url : string
}.

(** [Uniref.__init__(self, exp=None)] *)
Definition Uniref_init (exp : value) : M Uniref :=
  let self := {| exp := exp;
                 database_name := "redbiom";
                 methods := ["get"];
                 uniref_url := "https://rest.uniprot.org/uniref/" |} in
  logger_debug "uniref calour database interface initialized" ;;;
  ret self.

Definition other : list (string * value) := [("annotationtype", VStr "other")].

(** The four entries the method appends, as it writes them. *)
Definition identifier_entry (feature : string) : value :=
  VTuple [VDict [("unirefid", VStr feature); ("annotationtype", VStr "other")];
          VStr feature].
Definition failure_entry (msg : string) : value :=
  VTuple [VDict other; VStr msg].
Definition name_entry (line : string) : value :=
  VList [VDict other; VStr line].
Definition organism_entry (line : string) : value :=
  VTuple [VDict other; VStr line].

(** The body of [for corg in cres['organisms']]. *)
Definition organism_body (corg : value) (shortdesc : list value)
  : M (list value) :=
  sn <- lift (getitem corg "scientificName") ;;
  line <- lift (percent_s "organism: " sn) ;;
  ret (shortdesc ++ [organism_entry line])%list.

(** The body of [for cres in res]. *)
Definition record_body (cres : value) (shortdesc : list value)
  : M (list value) :=
  name <- lift (getitem cres "name") ;;
  line <- lift (percent_s "name: " name) ;;
  let shortdesc := (shortdesc ++ [name_entry line])%list in
  has <- lift (contains "organisms" cres) ;;
  if (has : bool) then
    organisms <- lift (getitem cres "organisms") ;;
    corgs <- lift (iter organisms) ;;
    for_in corgs organism_body shortdesc
  else ret shortdesc.

(** [Uniref.get_seq_annotation_strings(self, feature)] *)
Definition get_seq_annotation_strings (self : Uniref) (feature : string)
  : M (list value) :=
  let shortdesc := [] in
  let shortdesc := (shortdesc ++ [identifier_entry feature])%list in
  res <- requests_get ((uniref_url self ++ "search?query=") ++ feature) ;;
  if negb (status_code res =? 200)%Z then
    code <- lift (getattr res "code") ;;
    msg <- lift (percent_d "uniref query failed. code " code) ;;
    logger_warn msg ;;;
    code <- lift (getattr res "code") ;;
    msg <- lift (percent_d "uniref query failed. code " code) ;;
    let shortdesc := (shortdesc ++ [failure_entry msg])%list in
    ret shortdesc
  else
    body <- lift (json res) ;;
    res <- lift (getitem body "results") ;;
    cress <- lift (iter res) ;;
    for_in cress record_body shortdesc.

(** [Uniref.show_annotation_info(self, annotation)] *)
Definition show_annotation_info (self : Uniref) (annotation : value)
  : M value :=
  let uniref_base := "https://www.uniprot.org/uniref/" in
  url <- lift (str_add uniref_base annotation) ;;
  _ <- webbrowser_open url 2 ;;
  ret VNone.

End Adapter.

(** The URL of the query, as line 67 writes it. *)
Definition query_url (self : Uniref) (feature : string) : string :=
  (uniref_url self ++ "search?query=") ++ feature.

(** ** Responses of the expected shape

    The service answers [{"results": [{"name": str, "organisms"?:
    [{"scientificName": str, ...}, ...]}, ...]}].  A record of that shape is
    summarised by its name and, when it has the key, the scientific names of
    its organisms. *)

Definition organism_shape (corg : value) (sn : string) : Prop :=
  getitem corg "scientificName" = Return (VStr sn).

Definition record_shape (cres : value) (sh : string * option (list string))
  : Prop :=
  getitem cres "name" = Return (VStr (fst sh)) /\
  match snd sh with
  | None => contains "organisms" cres = Return false
  | Some sns =>
      exists corgs,
        contains "organisms" cres = Return true /\
        getitem cres "organisms" = Return (VList corgs) /\
        Forall2 organism_shape corgs sns
  end.

Definition organism_lines (sns : list string) : list value :=
  map (fun sn => organism_entry ("organism: " ++ sn)) sns.

Definition record_lines (sh : string * option (list string)) : list value :=
  name_entry ("name: " ++ fst sh)
  :: match snd sh with
     | None => []
     | Some sns => organism_lines sns
     end.

Definition is_list2 (v : value) : bool :=
  match v with
  | VList [_; _] => true
  | _ => false
  end.

Definition is_tuple2 (v : value) : bool :=
  match v with
  | VTuple [_; _] => true
  | _ => false
  end.

Definition name_line (e : value) : Prop :=
  exists s, e = name_entry ("name: " ++ s).
Definition organism_line (e : value) : Prop :=
  exists s, e = organism_entry ("organism: " ++ s).
Definition failure_line (e : value) : Prop :=
  exists s, e = failure_entry ("uniref query failed. code " ++ s).

Definition entry_kind (e : value) : Prop :=
  name_line e \/ organism_line e \/ failure_line e.

Definition built (feature : string) (shortdesc : list value) : Prop :=
  exists rest,
    shortdesc = identifier_entry feature :: rest /\ Forall entry_kind rest.

(** ** Concrete services and objects *)

(** The object [Uniref(exp)] is once [__init__] has run. *)
Definition constructed (exp : value) : Uniref :=
  {| exp := exp;
     database_name := "redbiom";
     methods := ["get"];
     uniref_url := "https://rest.uniprot.org/uniref/" |}.

(** Stand-ins for the interpreter's printing in the concrete runs below;
    none of these runs formats anything but a str. *)
Definition str_unused (v : value) : string := "<object>".
Definition int_unused (bits : Z) : outcome Z :=
  Raise (ValueError "cannot convert float to integer").

(** A [requests.Response] for a status that is not 200: its body is an
    error page, not JSON. *)
Definition error_response (status : Z) (reason : string) : Response :=
  {| status_code := status;
     json := Raise JSONDecodeError;
     other_attrs := [("reason", VStr reason); ("ok", VBool false);
                     ("encoding", VStr "utf-8")] |}.

Definition ok_response (body : value) : Response :=
  {| status_code := 200;
     json := Return body;
     other_attrs := [("reason", VStr "OK"); ("ok", VBool true);
                     ("encoding", VStr "utf-8")] |}.

Definition service (res : Response) (url : string) : outcome Response :=
  Return res.

Definition browser_present (url : string) (new : Z) : outcome bool :=
  Return true.

Definition body_X_Y : value :=
  VDict [("results",
          VList [VDict [("name", VStr "X");
                        ("organisms",
                         VList [VDict [("scientificName", VStr "Y")]])]])].

(** ** Reading a returned sequence and its failures *)

(** The exceptions a 200 response can cause in lines 72-77 themselves: a
    subscript or a loop on a value of the wrong type, or one of the three
    keys missing. *)
Definition malformed_response_error (e : exn) : bool :=
  match e with
  | TypeError _ => true
  | KeyError k =>
      String.eqb k "results" || String.eqb k "name"
      || String.eqb k "scientificName"
  | _ => false
  end.

(** The values line 76 runs over for a record: the items of
    [cres['organisms']] when line 75 finds the key, none otherwise. *)
Definition organisms_of (cres : value) : list value :=
  match contains "organisms" cres with
  | Return true =>
      match getitem cres "organisms" with
      | Return organisms =>
          match iter organisms with
          | Return corgs => corgs
          | Raise _ => []
          end
      | Raise _ => []
      end
  | _ => []
  end.

(** The detail and the summary of an entry, tuple or list. *)
Definition entry_parts (e : value) : option (list (string * value) * string) :=
  match e with
  | VTuple [VDict d; VStr s] => Some (d, s)
  | VList [VDict d; VStr s] => Some (d, s)
  | _ => None
  end.

(** A service that cannot be reached. *)
Definition unreachable (url : string) : outcome Response :=
  Raise (RequestException "connection refused").

(** Bodies of 200 responses used in the concrete runs. *)
Definition body_two_records : value :=
  VDict [("results",
          VList [VDict [("name", VStr "A");
                        ("organisms",
                         VList [VDict [("scientificName", VStr "P")];
                                VDict [("scientificName", VStr "Q")]])];
                 VDict [("name", VStr "A")]])].

Definition body_nameless : value :=
  VDict [("results",
          VList [VDict [("name", VStr "A")];
                 VDict [("id", VStr "UniRef90_B")];
                 VDict [("name", VStr "C")]])].

Definition body_results_dict : value :=
  VDict [("results", VDict [("UniRef90_A", VDict [])])].

(** * Proofs *)

(** ** Running a computation *)

Lemma bind_Return {A B} (m : M A) (k : A -> M B) t a t' :
  m t = (Return a, t') -> bind m k t = k a t'.
Proof. intros H. unfold bind. now rewrite H. Qed.

Lemma bind_Raise {A B} (m : M A) (k : A -> M B) t e t' :
  m t = (Raise e, t') -> bind m k t = (Raise e, t').
Proof. intros H. unfold bind. now rewrite H. Qed.

Lemma bind_lift_Return {A B} (o : outcome A) (k : A -> M B) t a :
  o = Return a -> bind (lift o) k t = k a t.
Proof. intros ->. reflexivity. Qed.

Lemma bind_lift_Raise {A B} (o : outcome A) (k : A -> M B) t e :
  o = Raise e -> bind (lift o) k t = (Raise e, t).
Proof. intros ->. reflexivity. Qed.

(** A returning [bind] ran both halves. *)
Lemma bind_inv {A B} (m : M A) (k : A -> M B) t b t'' :
  bind m k t = (Return b, t'') ->
  exists a t', m t = (Return a, t') /\ k a t' = (Return b, t'').
Proof.
  unfold bind. destruct (m t) as [[a | e] t'] eqn:E; intros H.
  - now exists a, t'.
  - discriminate.
Qed.

Lemma bind_lift_inv {A B} (o : outcome A) (k : A -> M B) t b t' :
  bind (lift o) k t = (Return b, t') ->
  exists a, o = Return a /\ k a t = (Return b, t').
Proof.
  intros H. apply bind_inv in H. destruct H as (a & t1 & H1 & H2).
  unfold lift in H1. injection H1 as -> <-. now exists a.
Qed.

(** A loop whose body keeps an invariant keeps it. *)
Lemma for_in_invariant {A S} (P : S -> Prop) (body : A -> S -> M S) :
  (forall x s t s' t', P s -> body x s t = (Return s', t') -> P s') ->
  forall xs s t s' t',
    P s -> for_in xs body s t = (Return s', t') -> P s'.
Proof.
  intros Hbody xs. induction xs as [| x xs IH]; intros s t s' t' Hs Hrun.
  - cbn in Hrun. unfold ret in Hrun. now injection Hrun as <- _.
  - cbn in Hrun. apply bind_inv in Hrun.
    destruct Hrun as (s1 & t1 & H1 & H2).
    eapply IH; [ | exact H2 ]. eapply Hbody; eauto.
Qed.

(** A loop whose body is silent is silent. *)
Lemma for_in_silent {A S} (body : A -> S -> M S) :
  (forall x s t, snd (body x s t) = t) ->
  forall xs s t, snd (for_in xs body s t) = t.
Proof.
  intros Hbody xs. induction xs as [| x xs IH]; intros s t; cbn.
  - reflexivity.
  - unfold bind. specialize (Hbody x s t).
    destruct (body x s t) as [[s1 | e] t1]; cbn in *; subst.
    + apply IH.
    + reflexivity.
Qed.

Lemma percent_s_prefix str_other prefix v line :
  percent_s str_other prefix v = Return line ->
  exists s, line = prefix ++ s.
Proof.
  destruct v as [ | | | | | | xs | ]; cbn; intros H;
    try (injection H as <-; eauto).
  destruct xs as [| x [| y xs]]; try discriminate.
  injection H as <-. eauto.
Qed.

Lemma percent_d_prefix int_of_float prefix v line :
  percent_d int_of_float prefix v = Return line ->
  exists s, line = prefix ++ s.
Proof.
  assert (Harg : forall x, percent_d_arg int_of_float prefix x = Return line ->
                           exists s, line = prefix ++ s).
  { intros x. destruct x; cbn; intros H;
      try discriminate; try (injection H as <-; eauto).
    destruct (int_of_float bits); [ injection H as <-; eauto | discriminate ]. }
  destruct v as [ | b | z | bits | s | l | xs | items ]; intros H;
    try (match type of H with percent_d _ _ ?x = _ => exact (Harg x H) end).
  destruct xs as [| x [| y xs]]; try discriminate.
  exact (Harg x H).
Qed.

Section Runs.

Variable str_other : value -> string.
Variable int_of_float : Z -> outcome Z.
Variable requests_get_world : string -> outcome Response.

Local Abbreviation run := (get_seq_annotation_strings str_other int_of_float
                   requests_get_world).

(** *** The loops on records of the expected shape *)

Lemma organism_body_shape corg sn shortdesc t :
  organism_shape corg sn ->
  organism_body str_other corg shortdesc t
  = (Return (shortdesc ++ [organism_entry ("organism: " ++ sn)])%list, t).
Proof.
  intros H. unfold organism_body.
  now rewrite (bind_lift_Return _ _ _ _ H).
Qed.

Lemma for_in_organisms corgs sns :
  Forall2 organism_shape corgs sns ->
  forall shortdesc t,
    for_in corgs (organism_body str_other) shortdesc t
    = (Return (shortdesc ++ organism_lines sns)%list, t).
Proof.
  induction 1 as [| corg sn corgs sns H _ IH]; intros shortdesc t; cbn.
  - unfold ret. now rewrite app_nil_r.
  - erewrite bind_Return by (apply organism_body_shape; exact H).
    rewrite IH, <- app_assoc. reflexivity.
Qed.

Lemma record_body_shape cres sh shortdesc t :
  record_shape cres sh ->
  record_body str_other cres shortdesc t
  = (Return (shortdesc ++ record_lines sh)%list, t).
Proof.
  destruct sh as [name orgs]. intros [Hname Horgs]. cbn in Hname, Horgs.
  unfold record_body, record_lines. cbn [fst snd].
  rewrite (bind_lift_Return _ _ _ _ Hname). cbn [percent_s str].
  rewrite (bind_lift_Return _ _ _ _ eq_refl).
  destruct orgs as [sns |].
  - destruct Horgs as (corgs & Hin & Hget & Hall).
    rewrite (bind_lift_Return _ _ _ _ Hin).
    rewrite (bind_lift_Return _ _ _ _ Hget). cbn [iter].
    rewrite (bind_lift_Return _ _ _ _ eq_refl).
    rewrite (for_in_organisms _ _ Hall).
    now rewrite <- app_assoc.
  - now rewrite (bind_lift_Return _ _ _ _ Horgs).
Qed.

Lemma for_in_records cress shs :
  Forall2 record_shape cress shs ->
  forall shortdesc t,
    for_in cress (record_body str_other) shortdesc t
    = (Return (shortdesc ++ flat_map record_lines shs)%list, t).
Proof.
  induction 1 as [| cres sh cress shs H _ IH]; intros shortdesc t;
    cbn [for_in flat_map].
  - unfold ret. now rewrite app_nil_r.
  - erewrite bind_Return by (apply record_body_shape; exact H).
    rewrite IH, <- app_assoc. reflexivity.
Qed.

(** *** The three ways a call ends after the GET *)

(** A 200 response of the expected shape: the identifier line, then the
    lines of each record in order. *)
Lemma run_expected self feature t res body cress shs :
  requests_get_world (query_url self feature) = Return res ->
  status_code res = 200%Z ->
  json res = Return body ->
  getitem body "results" = Return (VList cress) ->
  Forall2 record_shape cress shs ->
  run self feature t
  = (Return (identifier_entry feature :: flat_map record_lines shs),
     (t ++ [HttpGet (query_url self feature)])%list).
Proof.
  intros Hget Hstatus Hjson Hresults Hshape.
  unfold get_seq_annotation_strings, requests_get.
  fold (query_url self feature).
  unfold bind at 1. unfold bind at 1. unfold emit, lift at 1.
  rewrite Hget, Hstatus. cbn [Z.eqb Pos.eqb negb].
  rewrite (bind_lift_Return _ _ _ _ Hjson).
  rewrite (bind_lift_Return _ _ _ _ Hresults). cbn [iter].
  rewrite (bind_lift_Return _ _ _ _ eq_refl).
  now rewrite (for_in_records _ _ Hshape).
Qed.

(** A response that is not 200, from [requests]: reading [res.code] for
    the warning raises, before anything is logged or appended. *)
Lemma run_not_200 self feature t res :
  requests_get_world (query_url self feature) = Return res ->
  status_code res <> 200%Z ->
  requests_Response res ->
  run self feature t
  = (Raise (AttributeError "Response" "code"),
     (t ++ [HttpGet (query_url self feature)])%list).
Proof.
  intros Hget Hstatus Hres.
  unfold get_seq_annotation_strings, requests_get.
  fold (query_url self feature).
  unfold bind at 1. unfold bind at 1. unfold emit, lift at 1.
  rewrite Hget. apply Z.eqb_neq in Hstatus. rewrite Hstatus. cbn [negb].
  apply bind_lift_Raise. unfold getattr. cbn [String.eqb Ascii.eqb Bool.eqb].
  unfold requests_Response in Hres. now rewrite Hres.
Qed.

(** The same response, had the object an integer attribute [code]: the
    warning is logged and the failure line is appended. *)
Lemma run_not_200_with_code self feature t res code :
  requests_get_world (query_url self feature) = Return res ->
  status_code res <> 200%Z ->
  lookup "code" (other_attrs res) = Some (VInt code) ->
  let msg := "uniref query failed. code " ++ decimal code in
  run self feature t
  = (Return [identifier_entry feature; failure_entry msg],
     (t ++ [HttpGet (query_url self feature)] ++ [LogWarning msg])%list).
Proof.
  intros Hget Hstatus Hcode msg.
  assert (Hattr : getattr res "code" = Return (VInt code)).
  { unfold getattr. cbn [String.eqb Ascii.eqb Bool.eqb]. now rewrite Hcode. }
  unfold get_seq_annotation_strings, requests_get.
  fold (query_url self feature).
  unfold bind at 1. unfold bind at 1. unfold emit, lift at 1.
  rewrite Hget. apply Z.eqb_neq in Hstatus. rewrite Hstatus. cbn [negb].
  rewrite (bind_lift_Return _ _ _ _ Hattr). cbn [percent_d percent_d_arg].
  rewrite (bind_lift_Return _ _ _ _ eq_refl).
  unfold logger_warn, emit. unfold bind at 1.
  rewrite (bind_lift_Return _ _ _ _ Hattr). cbn [percent_d percent_d_arg].
  rewrite (bind_lift_Return _ _ _ _ eq_refl).
  unfold ret. cbn [app]. now rewrite <- app_assoc.
Qed.

End Runs.

(** ** What every returning call has built, and what every call has done *)

Lemma built_app feature shortdesc e :
  built feature shortdesc -> entry_kind e ->
  built feature (shortdesc ++ [e]).
Proof.
  intros (rest & -> & Hrest) He. exists (rest ++ [e])%list. split.
  - reflexivity.
  - apply Forall_app. split; [ exact Hrest | now constructor ].
Qed.

Section Invariants.

Variable str_other : value -> string.
Variable int_of_float : Z -> outcome Z.
Variable requests_get_world : string -> outcome Response.

Lemma organism_body_built feature corg shortdesc t shortdesc' t' :
  built feature shortdesc ->
  organism_body str_other corg shortdesc t = (Return shortdesc', t') ->
  built feature shortdesc'.
Proof.
  intros Hb Hrun. unfold organism_body in Hrun.
  apply bind_lift_inv in Hrun. destruct Hrun as (sn & _ & Hrun).
  apply bind_lift_inv in Hrun. destruct Hrun as (line & Hline & Hrun).
  unfold ret in Hrun. injection Hrun as <- _.
  apply percent_s_prefix in Hline. destruct Hline as (s & ->).
  apply built_app; [ exact Hb | ]. right. left. now exists s.
Qed.

Lemma record_body_built feature cres shortdesc t shortdesc' t' :
  built feature shortdesc ->
  record_body str_other cres shortdesc t = (Return shortdesc', t') ->
  built feature shortdesc'.
Proof.
  intros Hb Hrun. unfold record_body in Hrun.
  apply bind_lift_inv in Hrun. destruct Hrun as (name & _ & Hrun).
  apply bind_lift_inv in Hrun. destruct Hrun as (line & Hline & Hrun).
  apply bind_lift_inv in Hrun. destruct Hrun as (has & _ & Hrun).
  apply percent_s_prefix in Hline. destruct Hline as (s & ->).
  assert (Hb' : built feature (shortdesc ++ [name_entry ("name: " ++ s)])).
  { apply built_app; [ exact Hb | ]. left. now exists s. }
  destruct has.
  - apply bind_lift_inv in Hrun. destruct Hrun as (organisms & _ & Hrun).
    apply bind_lift_inv in Hrun. destruct Hrun as (corgs & _ & Hrun).
    revert Hrun. apply for_in_invariant; [ | exact Hb' ].
    intros corg s0 t0 s1 t1. apply organism_body_built.
  - unfold ret in Hrun. now injection Hrun as <- _.
Qed.

(** Whatever the service answers, a call that returns has built the
    identifier line first and only name, organism and failure lines after
    it. *)
Lemma get_seq_annotation_strings_built self feature t shortdesc t' :
  get_seq_annotation_strings str_other int_of_float requests_get_world
    self feature t = (Return shortdesc, t') ->
  built feature shortdesc.
Proof.
  intros Hrun. unfold get_seq_annotation_strings in Hrun.
  apply bind_inv in Hrun. destruct Hrun as (res & t1 & _ & Hrun).
  assert (Hb : built feature ([] ++ [identifier_entry feature])).
  { exists []. now split. }
  destruct (negb (status_code res =? 200)%Z).
  - apply bind_lift_inv in Hrun. destruct Hrun as (code & _ & Hrun).
    apply bind_lift_inv in Hrun. destruct Hrun as (msg & _ & Hrun).
    apply bind_inv in Hrun. destruct Hrun as (u & t2 & _ & Hrun).
    apply bind_lift_inv in Hrun. destruct Hrun as (code' & _ & Hrun).
    apply bind_lift_inv in Hrun. destruct Hrun as (msg' & Hmsg & Hrun).
    unfold ret in Hrun. injection Hrun as <- _.
    apply percent_d_prefix in Hmsg. destruct Hmsg as (s & ->).
    apply (built_app feature ([] ++ [identifier_entry feature]));
      [ exact Hb | ]. right. right. now exists s.
  - apply bind_lift_inv in Hrun. destruct Hrun as (body & _ & Hrun).
    apply bind_lift_inv in Hrun. destruct Hrun as (results & _ & Hrun).
    apply bind_lift_inv in Hrun. destruct Hrun as (cress & _ & Hrun).
    revert Hrun. apply for_in_invariant; [ | exact Hb ].
    intros cres s0 t0 s1 t2. apply record_body_built.
Qed.

(** *** The trace *)

Lemma bind_lift_silent {A B} (o : outcome A) (k : A -> M B) t :
  (forall a, snd (k a t) = t) -> snd (bind (lift o) k t) = t.
Proof.
  intros Hk. unfold bind, lift. destruct o as [a | e]; [ apply Hk | reflexivity ].
Qed.

Lemma organism_body_silent corg shortdesc t :
  snd (organism_body str_other corg shortdesc t) = t.
Proof.
  unfold organism_body.
  apply bind_lift_silent. intros sn.
  apply bind_lift_silent. intros line. reflexivity.
Qed.

Lemma record_body_silent cres shortdesc t :
  snd (record_body str_other cres shortdesc t) = t.
Proof.
  unfold record_body.
  apply bind_lift_silent. intros name.
  apply bind_lift_silent. intros line.
  apply bind_lift_silent. intros [|].
  - apply bind_lift_silent. intros organisms.
    apply bind_lift_silent. intros corgs.
    apply for_in_silent. intros. apply organism_body_silent.
  - reflexivity.
Qed.

(** Every call issues one GET, to [uniref_url + 'search?query=' + feature],
    first; the only event that can follow it is the warning. *)
Lemma get_seq_annotation_strings_trace self feature t :
  exists o rest,
    get_seq_annotation_strings str_other int_of_float requests_get_world
      self feature t
    = (o, (t ++ HttpGet (query_url self feature) :: rest)%list)
    /\ (rest = [] \/ exists msg, rest = [LogWarning msg]).
Proof.
  set (url := query_url self feature).
  unfold get_seq_annotation_strings, requests_get.
  fold (query_url self feature). fold url.
  unfold bind at 1. unfold bind at 1. unfold emit, lift at 1.
  destruct (requests_get_world url) as [res | e].
  2: { exists (Raise e), []. split; [ reflexivity | now left ]. }
  set (t1 := (t ++ [HttpGet url])%list).
  destruct (negb (status_code res =? 200)%Z).
  - unfold bind at 1, lift at 1.
    destruct (getattr res "code") as [code | e].
    2: { exists (Raise e), []. split; [ reflexivity | now left ]. }
    unfold bind at 1, lift at 1.
    destruct (percent_d int_of_float _ code) as [msg | e].
    2: { exists (Raise e), []. split; [ reflexivity | now left ]. }
    unfold bind at 1, logger_warn, emit.
    unfold bind at 1, lift at 1.
    destruct (percent_d int_of_float _ code) as [msg' | e].
    + exists (Return ([] ++ [identifier_entry feature] ++ [failure_entry msg'])%list),
        [LogWarning msg].
      split; [ | right; now exists msg ].
      unfold bind, lift, ret, t1. now rewrite <- (app_assoc t).
    + exists (Raise e), [LogWarning msg].
      split; [ | right; now exists msg ].
      unfold bind, lift, t1. now rewrite <- (app_assoc t).
  - match goal with
    | |- exists o rest, ?m t1 = _ /\ _ =>
        exists (fst (m t1)), []; split; [ | now left ];
        rewrite (surjective_pairing (m t1)) at 1; f_equal
    end.
    apply bind_lift_silent. intros body.
    apply bind_lift_silent. intros results.
    apply bind_lift_silent. intros cress.
    apply for_in_silent. intros. apply record_body_silent.
Qed.

End Invariants.

(** ** The concrete runs *)

Lemma Uniref_init_returns exp t :
  Uniref_init exp t
  = (Return (constructed exp),
     (t ++ [LogDebug "uniref calour database interface initialized"])%list).
Proof. reflexivity. Qed.

Lemma error_response_is_requests status reason :
  requests_Response (error_response status reason).
Proof. reflexivity. Qed.

(** The identifier goes into the URL as it is: a space, an ampersand and a
    percent sign are not escaped. *)
Example query_url_unescaped :
  query_url (constructed VNone) "a b&c=%41"
  = "https://rest.uniprot.org/uniref/search?query=a b&c=%41".
Proof. reflexivity. Qed.

Lemma getitem_contains v k x :
  getitem v k = Return x -> contains k v = Return true.
Proof.
  destruct v; cbn; try discriminate.
  destruct (lookup k items); [ reflexivity | discriminate ].
Qed.

(** ** The claims *)

(** C1.  The spec promises that a response whose status is not 200 is
    handled: a warning is logged, one failure line is appended and two
    entries are returned.  On a 404 from [requests] the method instead
    raises [AttributeError] while it builds the warning ([res.code] is not
    an attribute of the response): after the GET nothing is logged, and
    nothing is returned. *)
Theorem status_404_raises_AttributeError :
  get_seq_annotation_strings str_unused int_unused
    (service (error_response 404 "Not Found"))
    (constructed VNone) "UniRef90_A0A174LDE8" []
  = (Raise (AttributeError "Response" "code"),
     [HttpGet "https://rest.uniprot.org/uniref/search?query=UniRef90_A0A174LDE8"]).
Proof. reflexivity. Qed.

(** C2.  The spec promises a sequence with at least the identifier entry
    for every response, a failure status included.  On a 500 from
    [requests] the call returns no sequence at all. *)
Theorem status_500_returns_no_sequence :
  ~ exists shortdesc t',
      get_seq_annotation_strings str_unused int_unused
        (service (error_response 500 "Internal Server Error"))
        (constructed VNone) "UniRef90_A0A174LDE8" []
      = (Return shortdesc, t').
Proof.
  intros (shortdesc & t' & H).
  rewrite (run_not_200 str_unused int_unused _ _ _ []
             (error_response 500 "Internal Server Error")) in H.
  - discriminate.
  - reflexivity.
  - discriminate.
  - apply error_response_is_requests.
Qed.

(** C3.  The first entry of the returned sequence is the tuple
    [({'unirefid': f, 'annotationtype': 'other'}, f)]: in every call that
    returns, and every 200 response of the expected shape makes the call
    return. *)
Theorem first_entry_is_identifier
  str_other int_of_float requests_get_world self (f : string) t :
  (forall shortdesc t',
      get_seq_annotation_strings str_other int_of_float requests_get_world
        self f t = (Return shortdesc, t') ->
      nth_error shortdesc 0
      = Some (VTuple [VDict [("unirefid", VStr f);
                             ("annotationtype", VStr "other")];
                      VStr f]))
  /\ (forall res body cress shs,
         requests_get_world ((uniref_url self ++ "search?query=") ++ f)
         = Return res ->
         status_code res = 200%Z ->
         json res = Return body ->
         getitem body "results" = Return (VList cress) ->
         Forall2 record_shape cress shs ->
         exists shortdesc t',
           get_seq_annotation_strings str_other int_of_float
             requests_get_world self f t = (Return shortdesc, t')
           /\ nth_error shortdesc 0
              = Some (VTuple [VDict [("unirefid", VStr f);
                                     ("annotationtype", VStr "other")];
                              VStr f])).
Proof.
  split.
  - intros shortdesc t' Hrun.
    apply get_seq_annotation_strings_built in Hrun.
    destruct Hrun as (rest & -> & _). reflexivity.
  - intros res body cress shs Hget Hstatus Hjson Hresults Hshape.
    eexists. eexists. split.
    + eapply run_expected; eauto.
    + reflexivity.
Qed.

Lemma first_entry_is_identifier_witness :
  exists shortdesc t',
    get_seq_annotation_strings str_unused int_unused
      (service (ok_response body_X_Y)) (constructed VNone)
      "UniRef90_A0A174LDE8" [] = (Return shortdesc, t')
    /\ nth_error shortdesc 0
       = Some (VTuple [VDict [("unirefid", VStr "UniRef90_A0A174LDE8");
                              ("annotationtype", VStr "other")];
                       VStr "UniRef90_A0A174LDE8"]).
Proof.
  apply (proj2 (first_entry_is_identifier str_unused int_unused
                  (service (ok_response body_X_Y)) (constructed VNone)
                  "UniRef90_A0A174LDE8" [])
           (ok_response body_X_Y) body_X_Y
           [VDict [("name", VStr "X");
                   ("organisms", VList [VDict [("scientificName", VStr "Y")]])]]
           [("X", Some ["Y"])]).
  - reflexivity.
  - reflexivity.
  - reflexivity.
  - reflexivity.
  - constructor; [ | constructor ]. split; [ reflexivity | ].
    exists [VDict [("scientificName", VStr "Y")]].
    repeat split. constructor; [ reflexivity | constructor ].
Defined.

(** C4.  A 200 response with the one record
    [{"name": X, "organisms": [{"scientificName": Y}]}] gives three entries:
    the identifier line, the line ["name: X"], the line ["organism: Y"]. *)
Theorem one_record_one_organism
  str_other int_of_float requests_get_world self f t res body cres corg X Y :
  requests_get_world ((uniref_url self ++ "search?query=") ++ f) = Return res ->
  status_code res = 200%Z ->
  json res = Return body ->
  getitem body "results" = Return (VList [cres]) ->
  getitem cres "name" = Return (VStr X) ->
  getitem cres "organisms" = Return (VList [corg]) ->
  getitem corg "scientificName" = Return (VStr Y) ->
  exists shortdesc t',
    get_seq_annotation_strings str_other int_of_float requests_get_world
      self f t = (Return shortdesc, t')
    /\ List.length shortdesc = 3
    /\ shortdesc
       = [VTuple [VDict [("unirefid", VStr f); ("annotationtype", VStr "other")];
                  VStr f];
          VList [VDict [("annotationtype", VStr "other")]; VStr ("name: " ++ X)];
          VTuple [VDict [("annotationtype", VStr "other")];
                  VStr ("organism: " ++ Y)]].
Proof.
  intros Hget Hstatus Hjson Hresults Hname Horgs Hsn.
  eexists. eexists. split.
  - apply (run_expected _ _ _ _ _ _ res body [cres] [(X, Some [Y])]); auto.
    constructor; [ | constructor ]. split; [ exact Hname | ].
    exists [corg]. split; [ | split ].
    + eapply getitem_contains. exact Horgs.
    + exact Horgs.
    + constructor; [ exact Hsn | constructor ].
  - split; reflexivity.
Qed.

Lemma one_record_one_organism_witness :
  exists shortdesc t',
    get_seq_annotation_strings str_unused int_unused
      (service (ok_response body_X_Y)) (constructed VNone)
      "UniRef90_A0A174LDE8" [] = (Return shortdesc, t')
    /\ List.length shortdesc = 3
    /\ shortdesc
       = [VTuple [VDict [("unirefid", VStr "UniRef90_A0A174LDE8");
                         ("annotationtype", VStr "other")];
                  VStr "UniRef90_A0A174LDE8"];
          VList [VDict [("annotationtype", VStr "other")]; VStr "name: X"];
          VTuple [VDict [("annotationtype", VStr "other")];
                  VStr "organism: Y"]].
Proof.
  apply (one_record_one_organism str_unused int_unused
           (service (ok_response body_X_Y)) (constructed VNone)
           "UniRef90_A0A174LDE8" [] (ok_response body_X_Y) body_X_Y
           (VDict [("name", VStr "X");
                   ("organisms", VList [VDict [("scientificName", VStr "Y")]])])
           (VDict [("scientificName", VStr "Y")]) "X" "Y");
    reflexivity.
Defined.

(** C5.  A 200 response whose [results] is the empty list gives exactly one
    entry, the identifier line [({'unirefid': f, 'annotationtype': 'other'},
    f)]. *)
Theorem empty_results
  str_other int_of_float requests_get_world self f t res body :
  requests_get_world ((uniref_url self ++ "search?query=") ++ f) = Return res ->
  status_code res = 200%Z ->
  json res = Return body ->
  getitem body "results" = Return (VList []) ->
  exists shortdesc t',
    get_seq_annotation_strings str_other int_of_float requests_get_world
      self f t = (Return shortdesc, t')
    /\ List.length shortdesc = 1
    /\ shortdesc
       = [VTuple [VDict [("unirefid", VStr f); ("annotationtype", VStr "other")];
                  VStr f]].
Proof.
  intros Hget Hstatus Hjson Hresults.
  eexists. eexists. split.
  - apply (run_expected _ _ _ _ _ _ res body [] []); auto.
  - split; reflexivity.
Qed.

Lemma empty_results_witness :
  exists shortdesc t',
    get_seq_annotation_strings str_unused int_unused
      (service (ok_response (VDict [("results", VList [])])))
      (constructed VNone) "UniRef90_A0A174LDE8" [] = (Return shortdesc, t')
    /\ List.length shortdesc = 1
    /\ shortdesc
       = [VTuple [VDict [("unirefid", VStr "UniRef90_A0A174LDE8");
                         ("annotationtype", VStr "other")];
                  VStr "UniRef90_A0A174LDE8"]].
Proof.
  apply (empty_results str_unused int_unused
           (service (ok_response (VDict [("results", VList [])])))
           (constructed VNone) "UniRef90_A0A174LDE8" []
           (ok_response (VDict [("results", VList [])]))
           (VDict [("results", VList [])]));
    reflexivity.
Defined.

(** C6.  A record with a name and no [organisms] key appends its name line
    and nothing else, without an error; and a record for which an organism
    line is appended has the key. *)
Theorem no_organisms_key_no_organism_line str_other :
  (forall items name line shortdesc t,
      lookup "organisms" items = None ->
      lookup "name" items = Some name ->
      percent_s str_other "name: " name = Return line ->
      record_body str_other (VDict items) shortdesc t
      = (Return (shortdesc ++ [name_entry line])%list, t))
  /\ (forall cres shortdesc t shortdesc' t' line,
         record_body str_other cres shortdesc t = (Return shortdesc', t') ->
         In (organism_entry line) (skipn (List.length shortdesc) shortdesc') ->
         contains "organisms" cres = Return true).
Proof.
  split.
  - intros items name line shortdesc t Horgs Hname Hline.
    unfold record_body.
    rewrite (bind_lift_Return (getitem (VDict items) "name") _ _ name)
      by (cbn; now rewrite Hname).
    rewrite (bind_lift_Return _ _ _ _ Hline).
    rewrite (bind_lift_Return (contains "organisms" (VDict items)) _ _ false)
      by (cbn; now rewrite Horgs).
    reflexivity.
  - intros cres shortdesc t shortdesc' t' line Hrun Hin.
    unfold record_body in Hrun.
    apply bind_lift_inv in Hrun. destruct Hrun as (name & _ & Hrun).
    apply bind_lift_inv in Hrun. destruct Hrun as (line' & _ & Hrun).
    apply bind_lift_inv in Hrun. destruct Hrun as ([|] & Hhas & Hrun).
    + exact Hhas.
    + unfold ret in Hrun. injection Hrun as <- _.
      rewrite skipn_app, skipn_all, Nat.sub_diag in Hin. cbn in Hin.
      destruct Hin as [Hin | []]. discriminate.
Qed.

Lemma no_organisms_key_no_organism_line_witness :
  record_body str_unused (VDict [("id", VStr "UniRef90_A0A174LDE8");
                                 ("name", VStr "Cluster: X")])
    [identifier_entry "UniRef90_A0A174LDE8"] []
  = (Return [identifier_entry "UniRef90_A0A174LDE8";
             name_entry "name: Cluster: X"], []).
Proof.
  apply (proj1 (no_organisms_key_no_organism_line str_unused)
           [("id", VStr "UniRef90_A0A174LDE8"); ("name", VStr "Cluster: X")]
           (VStr "Cluster: X") "name: Cluster: X"
           [identifier_entry "UniRef90_A0A174LDE8"] []);
    reflexivity.
Defined.

(** C7.  The object [__init__] builds sends every query with one GET to
    ['https://rest.uniprot.org/uniref/' + 'search?query=' + feature], the
    identifier as it is; nothing happens before it and only the warning can
    follow it. *)
Theorem get_goes_to_concatenated_url exp t0 :
  exists self t1,
    Uniref_init exp t0 = (Return self, t1)
    /\ forall str_other int_of_float requests_get_world (f : string) t,
      exists o rest,
        get_seq_annotation_strings str_other int_of_float requests_get_world
          self f t
        = (o, (t ++ HttpGet (("https://rest.uniprot.org/uniref/"
                              ++ "search?query=") ++ f) :: rest)%list)
        /\ (rest = [] \/ exists msg, rest = [LogWarning msg]).
Proof.
  eexists. eexists. split.
  - apply Uniref_init_returns.
  - intros str_other int_of_float requests_get_world f t.
    apply (get_seq_annotation_strings_trace str_other int_of_float
             requests_get_world (constructed exp) f t).
Qed.

(** C8.  For a str, [show_annotation_info] opens
    ['https://www.uniprot.org/uniref/' + annotation] with [new=2] and
    returns [None], whenever the browser call itself returns. *)
Theorem show_annotation_info_str
  webbrowser_open_world self (annotation : string) t taken :
  webbrowser_open_world ("https://www.uniprot.org/uniref/" ++ annotation) 2%Z
  = Return taken ->
  show_annotation_info webbrowser_open_world self (VStr annotation) t
  = (Return VNone,
     (t ++ [BrowserOpen ("https://www.uniprot.org/uniref/" ++ annotation) 2])%list).
Proof.
  intros H. unfold show_annotation_info, webbrowser_open, str_add.
  rewrite (bind_lift_Return _ _ _ _ eq_refl).
  unfold bind, emit, lift, ret. now rewrite H.
Qed.

Lemma show_annotation_info_str_witness :
  show_annotation_info browser_present (constructed VNone)
    (VStr "UniRef90_A0A174LDE8") []
  = (Return VNone,
     [BrowserOpen "https://www.uniprot.org/uniref/UniRef90_A0A174LDE8" 2]).
Proof.
  apply (show_annotation_info_str browser_present (constructed VNone)
           "UniRef90_A0A174LDE8" [] true).
  reflexivity.
Defined.

(** C9.  Of the entries the method builds, the name entry alone is a list
    of two; the identifier, failure and organism entries are tuples of two.
    A returned sequence is the identifier tuple followed by such entries
    only. *)
Theorem name_entry_is_the_only_list
  str_other int_of_float requests_get_world self f t shortdesc t' :
  get_seq_annotation_strings str_other int_of_float requests_get_world
    self f t = (Return shortdesc, t') ->
  exists rest,
    shortdesc = identifier_entry f :: rest
    /\ is_tuple2 (identifier_entry f) = true
    /\ Forall (fun e =>
                 (name_line e /\ is_list2 e = true /\ is_tuple2 e = false)
                 \/ ((organism_line e \/ failure_line e)
                     /\ is_tuple2 e = true /\ is_list2 e = false))
         rest.
Proof.
  intros Hrun. apply get_seq_annotation_strings_built in Hrun.
  destruct Hrun as (rest & -> & Hrest). exists rest.
  split; [ reflexivity | split; [ reflexivity | ] ].
  eapply Forall_impl; [ | exact Hrest ].
  intros e [Hn | [Ho | Hf]].
  - left. split; [ exact Hn | ]. destruct Hn as (s & ->). now split.
  - right. split; [ now left | ]. destruct Ho as (s & ->). now split.
  - right. split; [ now right | ]. destruct Hf as (s & ->). now split.
Qed.

Lemma name_entry_is_the_only_list_witness :
  exists rest,
    [identifier_entry "UniRef90_A0A174LDE8"; name_entry "name: X";
     organism_entry "organism: Y"]
    = identifier_entry "UniRef90_A0A174LDE8" :: rest
    /\ is_tuple2 (identifier_entry "UniRef90_A0A174LDE8") = true
    /\ Forall (fun e =>
                 (name_line e /\ is_list2 e = true /\ is_tuple2 e = false)
                 \/ ((organism_line e \/ failure_line e)
                     /\ is_tuple2 e = true /\ is_list2 e = false))
         rest.
Proof.
  apply (name_entry_is_the_only_list str_unused int_unused
           (service (ok_response body_X_Y)) (constructed VNone)
           "UniRef90_A0A174LDE8" [] _
           [HttpGet "https://rest.uniprot.org/uniref/search?query=UniRef90_A0A174LDE8"]).
  reflexivity.
Defined.

(** C10.  For a value that is not a str, [show_annotation_info] raises
    [TypeError] from the concatenation; the browser is not called. *)
Theorem show_annotation_info_not_str
  webbrowser_open_world self (annotation : value) t :
  (forall s, annotation <> VStr s) ->
  exists msg,
    show_annotation_info webbrowser_open_world self annotation t
    = (Raise (TypeError msg), t).
Proof.
  intros Hns. unfold show_annotation_info.
  destruct annotation;
    try (eexists; apply bind_lift_Raise; reflexivity).
  now destruct (Hns s).
Qed.

Lemma show_annotation_info_not_str_witness :
  exists msg,
    show_annotation_info browser_present (constructed VNone)
      (VDict [("unirefid", VStr "UniRef90_A0A174LDE8");
              ("annotationtype", VStr "other")]) []
    = (Raise (TypeError msg), []).
Proof.
  apply (show_annotation_info_not_str browser_present (constructed VNone)
           (VDict [("unirefid", VStr "UniRef90_A0A174LDE8");
                   ("annotationtype", VStr "other")]) []).
  intros s. discriminate.
Defined.

(** ** Further properties of the adapter *)

(** *** Loops and the operations that can fail *)

Lemma for_in_app {A S} (body : A -> S -> M S) xs ys :
  forall s t,
    for_in (xs ++ ys) body s t = bind (for_in xs body s) (for_in ys body) t.
Proof.
  induction xs as [| x xs IH]; intros s t; cbn.
  - reflexivity.
  - unfold bind in *. destruct (body x s t) as [[s1 | e] t1].
    + apply IH.
    + reflexivity.
Qed.

(** A loop that raises raised in one of its iterations. *)
Lemma for_in_Raise_inv {A S} (body : A -> S -> M S) xs :
  forall s t e t',
    for_in xs body s t = (Raise e, t') ->
    exists x s0 t0, In x xs /\ body x s0 t0 = (Raise e, t').
Proof.
  induction xs as [| x xs IH]; intros s t e t' H; cbn in H.
  - discriminate.
  - unfold bind in H. destruct (body x s t) as [[s1 | e1] t1] eqn:E.
    + destruct (IH _ _ _ _ H) as (y & s0 & t0 & Hin & Hy).
      exists y, s0, t0. split; [ now right | exact Hy ].
    + injection H as <- <-. exists x, s, t. split; [ now left | exact E ].
Qed.

Lemma bind_lift_Raise_inv {A B} (o : outcome A) (k : A -> M B) t e t' :
  bind (lift o) k t = (Raise e, t') ->
  (o = Raise e /\ t' = t) \/ exists a, o = Return a /\ k a t = (Raise e, t').
Proof.
  unfold bind, lift. destruct o as [a | e0]; intros H.
  - right. now exists a.
  - left. injection H as <- <-. now split.
Qed.

Lemma getitem_Raise v k e :
  getitem v k = Raise e -> e = KeyError k \/ exists msg, e = TypeError msg.
Proof.
  destruct v; cbn; intros H; try (injection H as <-; right; eauto).
  destruct (lookup k items); [ discriminate | injection H as <-; now left ].
Qed.

Lemma getitem_Return_dict v k x :
  getitem v k = Return x -> exists items, v = VDict items /\ lookup k items = Some x.
Proof.
  destruct v; cbn; try discriminate.
  destruct (lookup k items) as [y |] eqn:E; [ | discriminate ].
  intros H. injection H as <-. now exists items.
Qed.

Lemma iter_Raise v e : iter v = Raise e -> exists msg, e = TypeError msg.
Proof. destruct v; cbn; intros H; try discriminate; injection H as <-; eauto. Qed.

Lemma contains_Raise k v e :
  contains k v = Raise e -> exists msg, e = TypeError msg.
Proof. destruct v; cbn; intros H; try discriminate; injection H as <-; eauto. Qed.

Lemma percent_s_Raise str_other prefix v e :
  percent_s str_other prefix v = Raise e -> exists msg, e = TypeError msg.
Proof.
  destruct v as [ | | | | | | xs | ]; cbn; try discriminate.
  destruct xs as [| x [| y xs]]; intros H; try discriminate;
    injection H as <-; eauto.
Qed.

Lemma TypeError_malformed e :
  (exists msg, e = TypeError msg) -> malformed_response_error e = true.
Proof. intros (msg & ->). reflexivity. Qed.

Lemma run_ok_branch str_other int_of_float requests_get_world self feature t res :
  requests_get_world (query_url self feature) = Return res ->
  status_code res = 200%Z ->
  get_seq_annotation_strings str_other int_of_float requests_get_world
    self feature t
  = bind (lift (json res))
      (fun body =>
         bind (lift (getitem body "results"))
           (fun results =>
              bind (lift (iter results))
                (fun cress =>
                   for_in cress (record_body str_other)
                     [identifier_entry feature])))
      (t ++ [HttpGet (query_url self feature)])%list.
Proof.
  intros Hget Hstatus.
  unfold get_seq_annotation_strings, requests_get.
  fold (query_url self feature).
  unfold bind at 1. unfold bind at 1. unfold emit, lift at 1.
  rewrite Hget, Hstatus. reflexivity.
Qed.

(** *** Exceptions of the two loop bodies *)

Lemma organism_body_Raise str_other corg shortdesc t e t' :
  organism_body str_other corg shortdesc t = (Raise e, t') ->
  t' = t /\ (e = KeyError "scientificName" \/ exists msg, e = TypeError msg).
Proof.
  unfold organism_body. intros H.
  apply bind_lift_Raise_inv in H. destruct H as [[H ->] | (sn & _ & H)].
  - split; [ reflexivity | ]. apply getitem_Raise in H. exact H.
  - apply bind_lift_Raise_inv in H. destruct H as [[H ->] | (line & _ & H)].
    + split; [ reflexivity | ]. right. eapply percent_s_Raise. exact H.
    + discriminate.
Qed.

Lemma record_body_Raise str_other cres shortdesc t e t' :
  record_body str_other cres shortdesc t = (Raise e, t') ->
  e = KeyError "name" \/ e = KeyError "scientificName"
  \/ exists msg, e = TypeError msg.
Proof.
  unfold record_body. intros H.
  apply bind_lift_Raise_inv in H. destruct H as [[H _] | (name & Hname & H)].
  { apply getitem_Raise in H. destruct H as [-> | H]; auto. }
  apply bind_lift_Raise_inv in H. destruct H as [[H _] | (line & _ & H)].
  { right. right. eapply percent_s_Raise. exact H. }
  apply bind_lift_Raise_inv in H. destruct H as [[H _] | (has & Hhas & H)].
  { right. right. eapply contains_Raise. exact H. }
  destruct has; [ | discriminate ].
  apply bind_lift_Raise_inv in H. destruct H as [[H _] | (organisms & _ & H)].
  { (* line 75 found the key, so line 76 finds it too *)
    apply getitem_Return_dict in Hname. destruct Hname as (items & -> & _).
    cbn in Hhas, H. destruct (lookup "organisms" items); discriminate. }
  apply bind_lift_Raise_inv in H. destruct H as [[H _] | (corgs & _ & H)].
  { right. right. eapply iter_Raise. exact H. }
  apply for_in_Raise_inv in H. destruct H as (corg & s0 & t0 & _ & H).
  apply organism_body_Raise in H. destruct H as [_ [-> | H]]; auto.
Qed.



(** X2.  The adapter catches nothing: a failure of [requests.get] leaves
    the call as it is, and so does a failure of [json()] on a 200 response;
    in both cases the GET is the only event, nothing is logged and the
    identifier line already built is lost. *)
Theorem collaborator_failures_propagate
  str_other int_of_float requests_get_world self f t e :
  (requests_get_world ((uniref_url self ++ "search?query=") ++ f) = Raise e ->
   get_seq_annotation_strings str_other int_of_float requests_get_world
     self f t
   = (Raise e, (t ++ [HttpGet ((uniref_url self ++ "search?query=") ++ f)])%list))
  /\ (forall res,
         requests_get_world ((uniref_url self ++ "search?query=") ++ f)
         = Return res ->
         status_code res = 200%Z ->
         json res = Raise e ->
         get_seq_annotation_strings str_other int_of_float requests_get_world
           self f t
         = (Raise e,
            (t ++ [HttpGet ((uniref_url self ++ "search?query=") ++ f)])%list)).
Proof.
  split.
  - intros Hget. unfold get_seq_annotation_strings, requests_get.
    unfold bind at 1. unfold bind at 1. unfold emit, lift at 1.
    now rewrite Hget.
  - intros res Hget Hstatus Hjson.
    rewrite (run_ok_branch _ _ _ _ _ _ res Hget Hstatus).
    now apply bind_lift_Raise.
Qed.

Lemma collaborator_failures_propagate_witness :
  get_seq_annotation_strings str_unused int_unused unreachable
    (constructed VNone) "UniRef90_A0A174LDE8" []
  = (Raise (RequestException "connection refused"),
     [HttpGet "https://rest.uniprot.org/uniref/search?query=UniRef90_A0A174LDE8"])
  /\ get_seq_annotation_strings str_unused int_unused
       (service {| status_code := 200; json := Raise JSONDecodeError;
                   other_attrs := [] |})
       (constructed VNone) "UniRef90_A0A174LDE8" []
     = (Raise JSONDecodeError,
        [HttpGet "https://rest.uniprot.org/uniref/search?query=UniRef90_A0A174LDE8"]).
Proof.
  split.
  - apply (proj1 (collaborator_failures_propagate str_unused int_unused
                    unreachable (constructed VNone) "UniRef90_A0A174LDE8" []
                    (RequestException "connection refused"))).
    reflexivity.
  - apply (proj2 (collaborator_failures_propagate str_unused int_unused
                    (service {| status_code := 200; json := Raise JSONDecodeError;
                                other_attrs := [] |})
                    (constructed VNone) "UniRef90_A0A174LDE8" []
                    JSONDecodeError)
             {| status_code := 200; json := Raise JSONDecodeError;
                other_attrs := [] |});
      reflexivity.
Defined.

(** X3.  Only the status 200 is a success.  For every other status (201,
    204, 301, 404, 500, ...) of a response of [requests], whatever its
    body, the call raises [AttributeError] on [res.code] right after the
    GET: the body is not read and nothing is logged. *)
Theorem every_other_status_raises
  str_other int_of_float requests_get_world self f t res :
  requests_get_world ((uniref_url self ++ "search?query=") ++ f) = Return res ->
  status_code res <> 200%Z ->
  requests_Response res ->
  get_seq_annotation_strings str_other int_of_float requests_get_world
    self f t
  = (Raise (AttributeError "Response" "code"),
     (t ++ [HttpGet ((uniref_url self ++ "search?query=") ++ f)])%list).
Proof.
  intros Hget Hstatus Hres.
  unfold get_seq_annotation_strings, requests_get.
  unfold bind at 1. unfold bind at 1. unfold emit, lift at 1.
  rewrite Hget. apply Z.eqb_neq in Hstatus. rewrite Hstatus. cbn [negb].
  apply bind_lift_Raise. unfold getattr. cbn [String.eqb Ascii.eqb Bool.eqb].
  unfold requests_Response in Hres. now rewrite Hres.
Qed.

Lemma every_other_status_raises_witness :
  get_seq_annotation_strings str_unused int_unused
    (service {| status_code := 201; json := Return body_X_Y;
                other_attrs := [("reason", VStr "Created")] |})
    (constructed VNone) "UniRef90_A0A174LDE8" []
  = (Raise (AttributeError "Response" "code"),
     [HttpGet "https://rest.uniprot.org/uniref/search?query=UniRef90_A0A174LDE8"]).
Proof.
  apply (every_other_status_raises str_unused int_unused
           (service {| status_code := 201; json := Return body_X_Y;
                       other_attrs := [("reason", VStr "Created")] |})
           (constructed VNone) "UniRef90_A0A174LDE8" []
           {| status_code := 201; json := Return body_X_Y;
              other_attrs := [("reason", VStr "Created")] |}).
  - reflexivity.
  - discriminate.
  - reflexivity.
Defined.

(** X4.  On a 200 response the call is silent after the GET, whatever the
    body holds, and an exception that leaves it is the one [json()] raised,
    a [TypeError], or a [KeyError] for 'results', 'name' or
    'scientificName'.  In particular it is never a [KeyError] for
    'organisms': the test on line 75 guards the subscript on line 76. *)
Theorem ok_response_failures
  str_other int_of_float requests_get_world self f t res :
  requests_get_world ((uniref_url self ++ "search?query=") ++ f) = Return res ->
  status_code res = 200%Z ->
  exists o,
    get_seq_annotation_strings str_other int_of_float requests_get_world
      self f t
    = (o, (t ++ [HttpGet ((uniref_url self ++ "search?query=") ++ f)])%list)
    /\ forall e, o = Raise e ->
                 json res = Raise e \/ malformed_response_error e = true.
Proof.
  intros Hget Hstatus.
  rewrite (run_ok_branch _ _ _ _ _ _ res Hget Hstatus).
  fold (query_url self f). set (t1 := (t ++ [HttpGet (query_url self f)])%list).
  match goal with
  | |- exists o, ?m t1 = _ /\ _ =>
      exists (fst (m t1)); split;
      [ rewrite (surjective_pairing (m t1)) at 1; f_equal;
        apply bind_lift_silent; intros body;
        apply bind_lift_silent; intros results;
        apply bind_lift_silent; intros cress;
        apply for_in_silent; intros; apply record_body_silent
      | ]
  end.
  intros e He.
  match type of He with
  | fst (?m t1) = _ => destruct (m t1) as [o t2] eqn:E
  end.
  cbn in He. subst o.
  apply bind_lift_Raise_inv in E. destruct E as [[E _] | (body & _ & E)].
  { now left. }
  right.
  apply bind_lift_Raise_inv in E. destruct E as [[E _] | (results & _ & E)].
  { apply getitem_Raise in E. destruct E as [-> | E].
    - reflexivity.
    - now apply TypeError_malformed. }
  apply bind_lift_Raise_inv in E. destruct E as [[E _] | (cress & _ & E)].
  { apply TypeError_malformed. eapply iter_Raise. exact E. }
  apply for_in_Raise_inv in E. destruct E as (cres & s0 & t0 & _ & E).
  apply record_body_Raise in E. destruct E as [-> | [-> | E]].
  - reflexivity.
  - reflexivity.
  - now apply TypeError_malformed.
Qed.

Lemma ok_response_failures_witness :
  exists o,
    get_seq_annotation_strings str_unused int_unused
      (service (ok_response (VDict [("error", VStr "no such cluster")])))
      (constructed VNone) "UniRef90_A0A174LDE8" []
    = (o, [HttpGet "https://rest.uniprot.org/uniref/search?query=UniRef90_A0A174LDE8"])
    /\ forall e, o = Raise e ->
                 json (ok_response (VDict [("error", VStr "no such cluster")]))
                 = Raise e
                 \/ malformed_response_error e = true.
Proof.
  apply (ok_response_failures str_unused int_unused
           (service (ok_response (VDict [("error", VStr "no such cluster")])))
           (constructed VNone) "UniRef90_A0A174LDE8" []
           (ok_response (VDict [("error", VStr "no such cluster")])));
    reflexivity.
Defined.

(** X5.  One record without a 'name' loses the whole answer: when the
    records before it are of the expected shape, the call raises
    [KeyError('name')] and returns none of the lines it had built for them,
    whatever records follow. *)
Theorem record_without_name_discards_all
  str_other int_of_float requests_get_world self f t res body
  good shs items later :
  requests_get_world ((uniref_url self ++ "search?query=") ++ f) = Return res ->
  status_code res = 200%Z ->
  json res = Return body ->
  getitem body "results" = Return (VList (good ++ VDict items :: later)) ->
  Forall2 record_shape good shs ->
  lookup "name" items = None ->
  get_seq_annotation_strings str_other int_of_float requests_get_world
    self f t
  = (Raise (KeyError "name"),
     (t ++ [HttpGet ((uniref_url self ++ "search?query=") ++ f)])%list).
Proof.
  intros Hget Hstatus Hjson Hresults Hshape Hname.
  rewrite (run_ok_branch _ _ _ _ _ _ res Hget Hstatus).
  rewrite (bind_lift_Return _ _ _ _ Hjson).
  rewrite (bind_lift_Return _ _ _ _ Hresults). cbn [iter].
  rewrite (bind_lift_Return _ _ _ _ eq_refl).
  rewrite for_in_app.
  erewrite bind_Return by (apply for_in_records; exact Hshape).
  cbn [for_in]. apply bind_Raise. unfold record_body.
  apply bind_lift_Raise. cbn. now rewrite Hname.
Qed.

Lemma record_without_name_discards_all_witness :
  get_seq_annotation_strings str_unused int_unused
    (service (ok_response body_nameless)) (constructed VNone) "U" []
  = (Raise (KeyError "name"),
     [HttpGet "https://rest.uniprot.org/uniref/search?query=U"]).
Proof.
  apply (record_without_name_discards_all str_unused int_unused
           (service (ok_response body_nameless)) (constructed VNone) "U" []
           (ok_response body_nameless) body_nameless
           [VDict [("name", VStr "A")]] [("A", None)]
           [("id", VStr "UniRef90_B")] [VDict [("name", VStr "C")]]);
    try reflexivity.
  constructor; [ split; reflexivity | constructor ].
Defined.

(** X6.  Inside a record, one organism without a 'scientificName' makes the
    loop body raise [KeyError('scientificName')], after the organisms before
    it were formatted and whatever organisms follow. *)
Theorem organism_without_scientificName
  str_other cres name good sns items later shortdesc t :
  getitem cres "name" = Return (VStr name) ->
  getitem cres "organisms" = Return (VList (good ++ VDict items :: later)) ->
  Forall2 organism_shape good sns ->
  lookup "scientificName" items = None ->
  record_body str_other cres shortdesc t
  = (Raise (KeyError "scientificName"), t).
Proof.
  intros Hname Horgs Hshape Hsn. unfold record_body.
  rewrite (bind_lift_Return _ _ _ _ Hname). cbn [percent_s str].
  rewrite (bind_lift_Return _ _ _ _ eq_refl).
  rewrite (bind_lift_Return _ _ _ _ (getitem_contains _ _ _ Horgs)).
  rewrite (bind_lift_Return _ _ _ _ Horgs). cbn [iter].
  rewrite (bind_lift_Return _ _ _ _ eq_refl).
  rewrite for_in_app.
  erewrite bind_Return by (apply for_in_organisms; exact Hshape).
  cbn [for_in]. apply bind_Raise. unfold organism_body.
  apply bind_lift_Raise. cbn. now rewrite Hsn.
Qed.

Lemma organism_without_scientificName_witness :
  record_body str_unused
    (VDict [("name", VStr "A");
            ("organisms", VList [VDict [("scientificName", VStr "P")];
                                 VDict [("commonName", VStr "q")]])])
    [identifier_entry "U"] []
  = (Raise (KeyError "scientificName"), []).
Proof.
  apply (organism_without_scientificName str_unused
           (VDict [("name", VStr "A");
                   ("organisms", VList [VDict [("scientificName", VStr "P")];
                                        VDict [("commonName", VStr "q")]])])
           "A" [VDict [("scientificName", VStr "P")]] ["P"]
           [("commonName", VStr "q")] [] [identifier_entry "U"] []);
    try reflexivity.
  constructor; [ reflexivity | constructor ].
Defined.

(** X7.  [results] need not be a list for the loop on line 73 to run.  A
    dict is run over by its keys and a str by its characters, which are
    strs: when it is empty the call returns the identifier line alone, as
    for [[]], and otherwise line 74 raises [TypeError] on the first item. *)
Theorem results_dict_or_str
  str_other int_of_float requests_get_world self f t res body results :
  requests_get_world ((uniref_url self ++ "search?query=") ++ f) = Return res ->
  status_code res = 200%Z ->
  json res = Return body ->
  getitem body "results" = Return results ->
  (exists items, results = VDict items) \/ (exists s, results = VStr s) ->
  get_seq_annotation_strings str_other int_of_float requests_get_world
    self f t
  = (match iter results with
     | Return [] => Return [identifier_entry f]
     | _ => Raise (TypeError "string indices must be integers, not 'str'")
     end,
     (t ++ [HttpGet ((uniref_url self ++ "search?query=") ++ f)])%list).
Proof.
  intros Hget Hstatus Hjson Hresults Hkind.
  rewrite (run_ok_branch _ _ _ _ _ _ res Hget Hstatus).
  rewrite (bind_lift_Return _ _ _ _ Hjson).
  rewrite (bind_lift_Return _ _ _ _ Hresults).
  destruct Hkind as [(items & ->) | (s & ->)]; cbn [iter].
  - rewrite (bind_lift_Return _ _ _ _ eq_refl).
    destruct items as [| [k v] items]; [ reflexivity | ].
    cbn [map for_in fst]. apply bind_Raise. unfold record_body.
    apply bind_lift_Raise. reflexivity.
  - rewrite (bind_lift_Return _ _ _ _ eq_refl).
    destruct s as [| c s]; [ reflexivity | ].
    cbn [chars for_in]. apply bind_Raise. unfold record_body.
    apply bind_lift_Raise. reflexivity.
Qed.

Lemma results_dict_or_str_witness :
  get_seq_annotation_strings str_unused int_unused
    (service (ok_response body_results_dict)) (constructed VNone) "U" []
  = (Raise (TypeError "string indices must be integers, not 'str'"),
     [HttpGet "https://rest.uniprot.org/uniref/search?query=U"]).
Proof.
  apply (results_dict_or_str str_unused int_unused
           (service (ok_response body_results_dict)) (constructed VNone) "U" []
           (ok_response body_results_dict) body_results_dict
           (VDict [("UniRef90_A", VDict [])]));
    try reflexivity.
  left. now exists [("UniRef90_A", VDict [])].
Defined.

(** *** Counting the entries *)

Lemma organism_loop_length str_other corgs :
  forall shortdesc t shortdesc' t',
    for_in corgs (organism_body str_other) shortdesc t
    = (Return shortdesc', t') ->
    List.length shortdesc' = List.length shortdesc + List.length corgs.
Proof.
  induction corgs as [| corg corgs IH]; intros s t s' t' H; cbn in H.
  - unfold ret in H. injection H as <- _. cbn. lia.
  - apply bind_inv in H. destruct H as (s1 & t1 & H1 & H2).
    apply IH in H2. unfold organism_body in H1.
    apply bind_lift_inv in H1. destruct H1 as (sn & _ & H1).
    apply bind_lift_inv in H1. destruct H1 as (line & _ & H1).
    unfold ret in H1. injection H1 as <- _.
    rewrite length_app in H2. cbn in *. lia.
Qed.

Lemma record_body_length str_other cres shortdesc t shortdesc' t' :
  record_body str_other cres shortdesc t = (Return shortdesc', t') ->
  List.length shortdesc'
  = List.length shortdesc + 1 + List.length (organisms_of cres).
Proof.
  intros H. unfold record_body in H.
  apply bind_lift_inv in H. destruct H as (name & _ & H).
  apply bind_lift_inv in H. destruct H as (line & _ & H).
  apply bind_lift_inv in H. destruct H as (has & Hhas & H).
  unfold organisms_of. rewrite Hhas. destruct has.
  - apply bind_lift_inv in H. destruct H as (organisms & Horgs & H).
    apply bind_lift_inv in H. destruct H as (corgs & Hiter & H).
    rewrite Horgs, Hiter. apply organism_loop_length in H.
    rewrite length_app in H. cbn in H. lia.
  - unfold ret in H. injection H as <- _. rewrite length_app. cbn. lia.
Qed.

Lemma record_loop_length str_other cress :
  forall shortdesc t shortdesc' t',
    for_in cress (record_body str_other) shortdesc t
    = (Return shortdesc', t') ->
    List.length shortdesc'
    = List.length shortdesc
      + list_sum (map (fun cres => 1 + List.length (organisms_of cres)) cress).
Proof.
  induction cress as [| cres cress IH]; intros s t s' t' H; cbn in H.
  - unfold ret in H. injection H as <- _. cbn. lia.
  - apply bind_inv in H. destruct H as (s1 & t1 & H1 & H2).
    apply IH in H2. apply record_body_length in H1.
    unfold list_sum in *. cbn [map fold_right]. lia.
Qed.

(** X8.  Whatever the values in the body are, a call that returns on a 200
    response has appended one entry per item of [results] and one per item
    of that record's [organisms] (none when the key is absent): the length
    of the sequence is 1 + the number of records + the number of their
    organisms. *)
Theorem entries_are_counted
  str_other int_of_float requests_get_world self f t res body results cress
  shortdesc t' :
  requests_get_world ((uniref_url self ++ "search?query=") ++ f) = Return res ->
  status_code res = 200%Z ->
  json res = Return body ->
  getitem body "results" = Return results ->
  iter results = Return cress ->
  get_seq_annotation_strings str_other int_of_float requests_get_world
    self f t = (Return shortdesc, t') ->
  List.length shortdesc
  = 1 + List.length cress
    + list_sum (map (fun cres => List.length (organisms_of cres)) cress).
Proof.
  intros Hget Hstatus Hjson Hresults Hiter Hrun.
  rewrite (run_ok_branch _ _ _ _ _ _ res Hget Hstatus) in Hrun.
  rewrite (bind_lift_Return _ _ _ _ Hjson) in Hrun.
  rewrite (bind_lift_Return _ _ _ _ Hresults) in Hrun.
  rewrite (bind_lift_Return _ _ _ _ Hiter) in Hrun.
  apply record_loop_length in Hrun. rewrite Hrun. cbn [List.length].
  clear. unfold list_sum.
  induction cress as [| cres cress IH]; cbn [map fold_right List.length].
  - reflexivity.
  - lia.
Qed.

Lemma entries_are_counted_witness :
  List.length [identifier_entry "U"; name_entry "name: A";
               organism_entry "organism: P"; organism_entry "organism: Q";
               name_entry "name: A"]
  = 1 + 2 + list_sum [2; 0].
Proof.
  apply (entries_are_counted str_unused int_unused
           (service (ok_response body_two_records)) (constructed VNone) "U" []
           (ok_response body_two_records) body_two_records
           (VList [VDict [("name", VStr "A");
                          ("organisms",
                           VList [VDict [("scientificName", VStr "P")];
                                  VDict [("scientificName", VStr "Q")]])];
                   VDict [("name", VStr "A")]])
           [VDict [("name", VStr "A");
                   ("organisms",
                    VList [VDict [("scientificName", VStr "P")];
                           VDict [("scientificName", VStr "Q")]])];
            VDict [("name", VStr "A")]]
           _ [HttpGet "https://rest.uniprot.org/uniref/search?query=U"]);
    reflexivity.
Defined.

(** X9.  The details of a returned sequence: the first entry's dict is
    [{'unirefid': f, 'annotationtype': 'other'}] and its summary is [f];
    every later entry's dict is exactly [{'annotationtype': 'other'}], so it
    names neither the feature nor the record it describes. *)
Theorem details_of_returned_entries
  str_other int_of_float requests_get_world self f t shortdesc t' :
  get_seq_annotation_strings str_other int_of_float requests_get_world
    self f t = (Return shortdesc, t') ->
  exists first rest,
    shortdesc = first :: rest
    /\ entry_parts first
       = Some ([("unirefid", VStr f); ("annotationtype", VStr "other")], f)
    /\ Forall (fun e =>
                 exists summary,
                   entry_parts e
                   = Some ([("annotationtype", VStr "other")], summary))
         rest.
Proof.
  intros Hrun. apply get_seq_annotation_strings_built in Hrun.
  destruct Hrun as (rest & -> & Hrest).
  exists (identifier_entry f), rest.
  split; [ reflexivity | split; [ reflexivity | ] ].
  eapply Forall_impl; [ | exact Hrest ].
  intros e [(s & ->) | [(s & ->) | (s & ->)]]; eexists; reflexivity.
Qed.

Lemma details_of_returned_entries_witness :
  exists first rest,
    [identifier_entry "U"; name_entry "name: A";
     organism_entry "organism: P"; organism_entry "organism: Q";
     name_entry "name: A"] = first :: rest
    /\ entry_parts first
       = Some ([("unirefid", VStr "U"); ("annotationtype", VStr "other")], "U")
    /\ Forall (fun e =>
                 exists summary,
                   entry_parts e
                   = Some ([("annotationtype", VStr "other")], summary))
         rest.
Proof.
  apply (details_of_returned_entries str_unused int_unused
           (service (ok_response body_two_records)) (constructed VNone) "U" []
           _ [HttpGet "https://rest.uniprot.org/uniref/search?query=U"]).
  reflexivity.
Defined.

(** X10.  The two methods together.  The docstring of
    [show_annotation_info] has it called with the dict part of an entry of
    [get_seq_annotation_strings]: for every entry of every returned
    sequence that call raises [TypeError] and opens nothing.  Called with
    the summary of the first entry instead, it opens the UniRef page of the
    queried feature. *)
Theorem show_annotation_info_on_entries
  str_other int_of_float requests_get_world webbrowser_open_world
  self f t shortdesc t' t2 :
  get_seq_annotation_strings str_other int_of_float requests_get_world
    self f t = (Return shortdesc, t') ->
  (forall e, In e shortdesc ->
             exists d summary msg,
               entry_parts e = Some (d, summary)
               /\ show_annotation_info webbrowser_open_world self (VDict d) t2
                  = (Raise (TypeError msg), t2))
  /\ (exists d rest,
         shortdesc = VTuple [VDict d; VStr f] :: rest
         /\ forall taken,
           webbrowser_open_world ("https://www.uniprot.org/uniref/" ++ f) 2%Z
           = Return taken ->
           show_annotation_info webbrowser_open_world self (VStr f) t2
           = (Return VNone,
              (t2 ++ [BrowserOpen ("https://www.uniprot.org/uniref/" ++ f) 2])%list)).
Proof.
  intros Hrun. apply get_seq_annotation_strings_built in Hrun.
  destruct Hrun as (rest & -> & Hrest). split.
  - intros e [<- | Hin].
    + do 3 eexists. split; [ reflexivity | ].
      unfold show_annotation_info. apply bind_lift_Raise. reflexivity.
    + rewrite Forall_forall in Hrest. specialize (Hrest e Hin).
      destruct Hrest as [(s & ->) | [(s & ->) | (s & ->)]];
        (do 3 eexists; split; [ reflexivity | ];
         unfold show_annotation_info; apply bind_lift_Raise; reflexivity).
  - do 2 eexists. split; [ reflexivity | ].
    intros taken Hopen. unfold show_annotation_info, webbrowser_open, str_add.
    rewrite (bind_lift_Return _ _ _ _ eq_refl).
    unfold bind, emit, lift, ret. now rewrite Hopen.
Qed.

Lemma show_annotation_info_on_entries_witness :
  (forall e,
      In e [identifier_entry "U"; name_entry "name: A";
            organism_entry "organism: P"; organism_entry "organism: Q";
            name_entry "name: A"] ->
      exists d summary msg,
        entry_parts e = Some (d, summary)
        /\ show_annotation_info browser_present (constructed VNone) (VDict d) []
           = (Raise (TypeError msg), []))
  /\ (exists d rest,
         [identifier_entry "U"; name_entry "name: A";
          organism_entry "organism: P"; organism_entry "organism: Q";
          name_entry "name: A"] = VTuple [VDict d; VStr "U"] :: rest
         /\ forall taken,
           browser_present ("https://www.uniprot.org/uniref/" ++ "U") 2%Z
           = Return taken ->
           show_annotation_info browser_present (constructed VNone) (VStr "U") []
           = (Return VNone,
              ([] ++ [BrowserOpen ("https://www.uniprot.org/uniref/" ++ "U") 2])%list)).
Proof.
  apply (show_annotation_info_on_entries str_unused int_unused
           (service (ok_response body_two_records)) browser_present
           (constructed VNone) "U" [] _
           [HttpGet "https://rest.uniprot.org/uniref/search?query=U"] []).
  reflexivity.
Defined.

(** X11.  [show_annotation_info] calls the browser at most once, and exactly
    when the annotation is a str, always with [new=2].  What
    [webbrowser.open] returns is ignored: the result is [None] also when no
    browser took the URL; a failure of the launch leaves the call as it is,
    after the attempt. *)
Theorem show_annotation_info_browser
  webbrowser_open_world self annotation t :
  exists o,
    show_annotation_info webbrowser_open_world self annotation t
    = (o, (t ++ match annotation with
                | VStr s => [BrowserOpen ("https://www.uniprot.org/uniref/" ++ s) 2]
                | _ => []
                end)%list)
    /\ forall s, annotation = VStr s ->
                 o = match webbrowser_open_world
                             ("https://www.uniprot.org/uniref/" ++ s) 2%Z with
                     | Return _ => Return VNone
                     | Raise e => Raise e
                     end.
Proof.
  unfold show_annotation_info, webbrowser_open.
  destruct annotation;
    try (eexists; split;
         [ rewrite app_nil_r; apply bind_lift_Raise; reflexivity
         | intros s0 Hs; discriminate ]).
  cbn [str_add]. rewrite (bind_lift_Return _ _ _ _ eq_refl).
  unfold bind, emit, lift, ret.
  destruct (webbrowser_open_world ("https://www.uniprot.org/uniref/" ++ s) 2%Z)
    as [taken | e] eqn:E.
  - exists (Return VNone). split; [ reflexivity | ].
    intros s0 Hs. injection Hs as <-. now rewrite E.
  - exists (Raise e). split; [ reflexivity | ].
    intros s0 Hs. injection Hs as <-. now rewrite E.
Qed.

Lemma append_cancel_l (p a b : string) : p ++ a = p ++ b -> a = b.
Proof.
  induction p as [| c p IH]; cbn; intros H.
  - exact H.
  - injection H as H. now apply IH.
Qed.

(** X12.  Two calls of the method on the same object with different
    identifiers never send their GET to the same URL: each call makes one
    GET, to the base, ['search?query='] and its own identifier, and these
    two URLs differ. *)
Theorem distinct_identifiers_distinct_GETs
  str_other int_of_float requests_get_world self (f1 f2 : string) t :
  f1 <> f2 ->
  exists o1 o2 u1 u2 rest1 rest2,
    get_seq_annotation_strings str_other int_of_float requests_get_world
      self f1 t = (o1, (t ++ HttpGet u1 :: rest1)%list)
    /\ get_seq_annotation_strings str_other int_of_float requests_get_world
         self f2 t = (o2, (t ++ HttpGet u2 :: rest2)%list)
    /\ u1 = (uniref_url self ++ "search?query=") ++ f1
    /\ u2 = (uniref_url self ++ "search?query=") ++ f2
    /\ u1 <> u2
    /\ (forall u, ~ In (HttpGet u) rest1)
    /\ (forall u, ~ In (HttpGet u) rest2).
Proof.
  intros Hne.
  destruct (get_seq_annotation_strings_trace str_other int_of_float
              requests_get_world self f1 t) as (o1 & rest1 & H1 & Hr1).
  destruct (get_seq_annotation_strings_trace str_other int_of_float
              requests_get_world self f2 t) as (o2 & rest2 & H2 & Hr2).
  exists o1, o2, (query_url self f1), (query_url self f2), rest1, rest2.
  split; [ exact H1 | ]. split; [ exact H2 | ].
  split; [ reflexivity | ]. split; [ reflexivity | ].
  assert (Hquiet : forall rest,
             rest = [] \/ (exists msg, rest = [LogWarning msg]) ->
             forall u, ~ In (HttpGet u) rest).
  { intros rest [-> | (msg & ->)] u Hin.
    - destruct Hin.
    - destruct Hin as [Hin | []]. discriminate. }
  split; [ | split; [ now apply Hquiet | now apply Hquiet ] ].
  intros Heq. apply Hne. unfold query_url in Heq.
  now apply append_cancel_l in Heq.
Qed.

Lemma distinct_identifiers_distinct_GETs_witness :
  exists o1 o2 u1 u2 rest1 rest2,
    get_seq_annotation_strings str_unused int_unused
      (service (ok_response body_X_Y)) (constructed VNone)
      "UniRef90_A0A174LDE8" [] = (o1, ([] ++ HttpGet u1 :: rest1)%list)
    /\ get_seq_annotation_strings str_unused int_unused
         (service (ok_response body_X_Y)) (constructed VNone)
         "UniRef90_A0A174LDE8 " [] = (o2, ([] ++ HttpGet u2 :: rest2)%list)
    /\ u1 = (uniref_url (constructed VNone) ++ "search?query=")
            ++ "UniRef90_A0A174LDE8"
    /\ u2 = (uniref_url (constructed VNone) ++ "search?query=")
            ++ "UniRef90_A0A174LDE8 "
    /\ u1 <> u2
    /\ (forall u, ~ In (HttpGet u) rest1)
    /\ (forall u, ~ In (HttpGet u) rest2).
Proof.
  apply (distinct_identifiers_distinct_GETs str_unused int_unused
           (service (ok_response body_X_Y)) (constructed VNone)
           "UniRef90_A0A174LDE8" "UniRef90_A0A174LDE8 " []).
  discriminate.
Defined.

(** X13.  A record whose [organisms] is present but empty (an empty list,
    dict or str) appends its name line only, as a record without the key
    does. *)
Theorem empty_organisms_like_absent
  str_other cres name organisms shortdesc t :
  getitem cres "name" = Return (VStr name) ->
  getitem cres "organisms" = Return organisms ->
  iter organisms = Return [] ->
  record_body str_other cres shortdesc t
  = (Return (shortdesc ++ [name_entry ("name: " ++ name)])%list, t).
Proof.
  intros Hname Horgs Hiter. unfold record_body.
  rewrite (bind_lift_Return _ _ _ _ Hname). cbn [percent_s str].
  rewrite (bind_lift_Return _ _ _ _ eq_refl).
  rewrite (bind_lift_Return _ _ _ _ (getitem_contains _ _ _ Horgs)).
  rewrite (bind_lift_Return _ _ _ _ Horgs).
  rewrite (bind_lift_Return _ _ _ _ Hiter).
  reflexivity.
Qed.

Lemma empty_organisms_like_absent_witness :
  record_body str_unused
    (VDict [("name", VStr "A"); ("organisms", VList [])])
    [identifier_entry "U"] []
  = (Return [identifier_entry "U"; name_entry "name: A"], []).
Proof.
  apply (empty_organisms_like_absent str_unused
           (VDict [("name", VStr "A"); ("organisms", VList [])])
           "A" (VList []) [identifier_entry "U"] []);
    reflexivity.
Defined.
